(** * A shallow embedding of the voxel ray tracer of Proyecto3_G

    The Rust sources compute in [f32].  We model [f32] by the executable
    IEEE-754 specification of the Standard Library ([SpecFloat]) at
    precision 24 and maximal exponent 128, rounding to nearest even, which
    is the binary32 format Rust uses.  Infinities and NaN are modelled, so
    divisions by a zero direction component evaluate as they do on the
    machine. *)

From Stdlib Require Import ZArith Bool List Lia.
From Stdlib Require Import Floats.SpecFloat.
Import ListNotations.
Open Scope Z_scope.

(** ** Binary32 arithmetic *)
Definition f32 := spec_float.

Module F32.
Definition t := f32.
Definition prec : Z := 24.
Definition emax : Z := 128.

Definition add (a b : t) : t := SFadd prec emax a b.
Definition sub (a b : t) : t := SFsub prec emax a b.
Definition mul (a b : t) : t := SFmul prec emax a b.
Definition div (a b : t) : t := SFdiv prec emax a b.
Definition sqrt (a : t) : t := SFsqrt prec emax a.
Definition neg (a : t) : t := SFopp a.
Definition abs (a : t) : t := SFabs a.

(** Comparison operators of Rust: false as soon as one side is NaN. *)
Definition lt (a b : t) : bool := SFltb a b.
Definition le (a b : t) : bool := SFleb a b.
Definition gt (a b : t) : bool := SFltb b a.

Definition is_nan (a : t) : bool :=
  match a with S754_nan => true | _ => false end.

(** [f32::max] and [f32::min]: when one argument is NaN the other one is
    returned. *)
Definition max (a b : t) : t :=
  if is_nan a then b else if is_nan b then a else if lt a b then b else a.
Definition min (a b : t) : t :=
  if is_nan a then b else if is_nan b then a else if lt b a then b else a.

(** The binary32 value nearest to [n * 2^e]; exact when representable.
    Integer conversions ([u32 as f32]) round the same way. *)
Definition lit (n e : Z) : t := binary_normalize prec emax n e false.
Definition of_Z (n : Z) : t := lit n 0.

Definition zero : t := S754_zero false.
Definition one : t := of_Z 1.
Definition two : t := of_Z 2.

(** A decimal literal [n / d] is the correctly rounded quotient. *)
Definition dec (n d : Z) : t := div (of_Z n) (of_Z d).

(** [f32::trunc]: round toward zero. *)
Definition trunc (a : t) : t :=
  match a with
  | S754_finite s m e =>
      if Z.leb 0 e then a
      else binary_normalize prec emax (cond_Zopp s (Z.shiftr (Zpos m) (- e))) 0 s
  | _ => a
  end.

(** [f32::fract] is [self - self.trunc()]: it keeps the sign of [self]. *)
Definition fract (a : t) : t := sub a (trunc a).

(** The saturating cast [x as u32]: NaN and negative values give 0. *)
Definition u32_max : Z := 2 ^ 32 - 1.
Definition to_u32 (a : t) : Z :=
  match a with
  | S754_finite false m e =>
      Z.min u32_max (if Z.leb 0 e then Zpos m * 2 ^ e else Z.shiftr (Zpos m) (- e))
  | S754_infinity false => u32_max
  | _ => 0
  end.
End F32.

(** ** nalgebra's [Vec3] *)
Record Vec3 := mkVec3 { vx : f32; vy : f32; vz : f32 }.

Module V.
Definition add (a b : Vec3) : Vec3 :=
  mkVec3 (F32.add (vx a) (vx b)) (F32.add (vy a) (vy b)) (F32.add (vz a) (vz b)).
Definition sub (a b : Vec3) : Vec3 :=
  mkVec3 (F32.sub (vx a) (vx b)) (F32.sub (vy a) (vy b)) (F32.sub (vz a) (vz b)).
Definition scale (a : Vec3) (s : f32) : Vec3 :=
  mkVec3 (F32.mul (vx a) s) (F32.mul (vy a) s) (F32.mul (vz a) s).
Definition neg (a : Vec3) : Vec3 :=
  mkVec3 (F32.neg (vx a)) (F32.neg (vy a)) (F32.neg (vz a)).
Definition splat (s : f32) : Vec3 := mkVec3 s s s.
Definition zeros : Vec3 := splat F32.zero.
(** nalgebra accumulates the dot product from zero, component by component. *)
Definition dot (a b : Vec3) : f32 :=
  F32.add (F32.add (F32.add F32.zero (F32.mul (vx a) (vx b)))
                   (F32.mul (vy a) (vy b)))
          (F32.mul (vz a) (vz b)).
Definition magnitude (a : Vec3) : f32 := F32.sqrt (dot a a).
Definition unscale (a : Vec3) (s : f32) : Vec3 :=
  mkVec3 (F32.div (vx a) s) (F32.div (vy a) s) (F32.div (vz a) s).
Definition normalize (a : Vec3) : Vec3 := unscale a (magnitude a).
End V.

(** ** Colors, textures and materials *)

(** [Color] holds three [u8] channels ([color.rs]). *)
Record Color := mkColor { cr : Z; cg : Z; cb : Z }.

Definition Color_black : Color := mkColor 0 0 0.

(** [texture.rs]: the decoded image is an external collaborator; it is
    given by its dimensions and its pixel lookup [get_pixel x y]. *)
Record Texture := mkTexture {
  tex_width : Z;
  tex_height : Z;
  get_pixel : Z -> Z -> Z * Z * Z
}.

(** [Texture::get_color]. *)
Definition get_color (tx : Texture) (u v : f32) : Z * Z * Z :=
  let u := F32.fract u in
  let v := F32.fract v in
  let x := Z.modulo (F32.to_u32 (F32.mul u (F32.of_Z (tex_width tx)))) (tex_width tx) in
  let y := Z.modulo (F32.to_u32 (F32.mul (F32.sub F32.one v) (F32.of_Z (tex_height tx))))
                    (tex_height tx) in
  get_pixel tx x y.

(** [material.rs]. *)
Record Material := mkMaterial {
  diffuse : Color;
  specular : f32;
  albedo : f32 * f32 * f32 * f32;
  refractive_index : f32;
  texture : option Texture
}.

Definition Material_black : Material :=
  mkMaterial Color_black F32.zero (F32.zero, F32.zero, F32.zero, F32.zero) F32.zero None.

(** ** [ray_intersect.rs] *)
Record Intersect := mkIntersect {
  point : Vec3;
  normal : Vec3;
  distance : f32;
  is_intersecting : bool;
  material : Material;
  uv : option (f32 * f32)
}.

Definition Intersect_new (p n : Vec3) (d : f32) (m : Material) (uv : option (f32 * f32))
  : Intersect := mkIntersect p n d true m uv.

Definition Intersect_empty : Intersect :=
  mkIntersect V.zeros V.zeros F32.zero false Material_black None.

(** ** [cube.rs] *)
Record Cube := mkCube { center : Vec3; size : f32; cube_material : Material }.

Definition half_extent (c : Cube) : Vec3 := V.splat (F32.div (size c) F32.two).

(** [Cube::get_uv]. *)
Definition get_uv (c : Cube) (p n : Vec3) : f32 * f32 :=
  let local_point := V.sub p (V.sub (center c) (half_extent c)) in
  let nine_tenths := F32.dec 9 10 in
  if F32.gt (F32.abs (vx n)) nine_tenths then
    (F32.fract (F32.div (vz local_point) (size c)),
     F32.fract (F32.div (vy local_point) (size c)))
  else if F32.gt (F32.abs (vy n)) nine_tenths then
    (F32.fract (F32.div (vx local_point) (size c)),
     F32.fract (F32.div (vz local_point) (size c)))
  else
    (F32.fract (F32.div (vx local_point) (size c)),
     F32.fract (F32.div (vy local_point) (size c))).

(** The entry and exit parameters of one slab, swapped into order
    ([if t_min > t_max { swap }]). *)
Definition slab (lo hi o d : f32) : f32 * f32 :=
  let t0 := F32.div (F32.sub lo o) d in
  let t1 := F32.div (F32.sub hi o) d in
  if F32.gt t0 t1 then (t1, t0) else (t0, t1).

(** Lines 35-77 of [Cube::ray_intersect]: the running interval folded over
    the x, y and z slabs; [None] is one of the two early [return
    Intersect::empty()]. *)
Definition slab_interval (c : Cube) (o d : Vec3) : option (f32 * f32) :=
  let min_bound := V.sub (center c) (half_extent c) in
  let max_bound := V.add (center c) (half_extent c) in
  let '(t_min, t_max) := slab (vx min_bound) (vx max_bound) (vx o) (vx d) in
  let '(t_y_min, t_y_max) := slab (vy min_bound) (vy max_bound) (vy o) (vy d) in
  if F32.gt t_min t_y_max || F32.gt t_y_min t_max then None else
  let t_min := if F32.gt t_y_min t_min then t_y_min else t_min in
  let t_max := if F32.lt t_y_max t_max then t_y_max else t_max in
  let '(t_z_min, t_z_max) := slab (vz min_bound) (vz max_bound) (vz o) (vz d) in
  if F32.gt t_min t_z_max || F32.gt t_z_min t_max then None else
  let t_min := if F32.gt t_z_min t_min then t_z_min else t_min in
  let t_max := if F32.lt t_z_max t_max then t_z_max else t_max in
  Some (t_min, t_max).

(** The face normal chosen at the hit point, first match in the order
    -x, +x, -y, +y, -z, +z; the zero vector when no plane is that close. *)
Definition face_normal (min_bound max_bound p : Vec3) : Vec3 :=
  let epsilon := F32.dec 1 10000 in
  let near a b := F32.lt (F32.abs (F32.sub a b)) epsilon in
  let m1 := F32.neg F32.one in
  if near (vx p) (vx min_bound) then mkVec3 m1 F32.zero F32.zero
  else if near (vx p) (vx max_bound) then mkVec3 F32.one F32.zero F32.zero
  else if near (vy p) (vy min_bound) then mkVec3 F32.zero m1 F32.zero
  else if near (vy p) (vy max_bound) then mkVec3 F32.zero F32.one F32.zero
  else if near (vz p) (vz min_bound) then mkVec3 F32.zero F32.zero m1
  else if near (vz p) (vz max_bound) then mkVec3 F32.zero F32.zero F32.one
  else V.zeros.

(** [Cube::ray_intersect]. *)
Definition ray_intersect (c : Cube) (o d : Vec3) : Intersect :=
  match slab_interval c o d with
  | None => Intersect_empty
  | Some (t_min, _) =>
      if F32.lt t_min F32.zero then Intersect_empty else
      let min_bound := V.sub (center c) (half_extent c) in
      let max_bound := V.add (center c) (half_extent c) in
      let p := V.add o (V.scale d t_min) in
      let n := face_normal min_bound max_bound p in
      let uv := get_uv c p n in
      Intersect_new p n t_min (cube_material c) (Some uv)
  end.

(** ** [main.rs]: shadows, sky and shading *)

(** [enum Object { Cube(Cube, bool) }]; the flag marks the light body. *)
Inductive Object := Object_Cube (c : Cube) (is_light : bool).

Definition object_intersect (obj : Object) (o d : Vec3) : Intersect :=
  match obj with Object_Cube c _ => ray_intersect c o d end.

Definition ORIGIN_BIAS : f32 := F32.dec 1 10000.
Definition DAY_SKY_COLOR : Color := mkColor 68 142 228.
Definition NIGHT_SKY_COLOR : Color := mkColor 10 10 30.

Definition offset_origin (i : Intersect) (direction : Vec3) : Vec3 :=
  let offset := V.scale (normal i) ORIGIN_BIAS in
  if F32.lt (V.dot direction (normal i)) F32.zero
  then V.sub (point i) offset
  else V.add (point i) offset.

Definition reflect (incident n : Vec3) : Vec3 :=
  V.sub incident (V.scale n (F32.mul F32.two (V.dot incident n))).

Definition adjust_sky_color (sun_position : Vec3) : Color :=
  if F32.gt (vy sun_position) F32.zero then DAY_SKY_COLOR else NIGHT_SKY_COLOR.

(** The light intensity of lines 112-117 of [cast_ray]. *)
Definition light_intensity_of (sun_position : Vec3) (sun_intensity : f32) : f32 :=
  let sun_height := F32.max (vy sun_position) F32.zero in
  if F32.gt sun_height F32.zero
  then F32.add (F32.mul sun_intensity (F32.div sun_height (F32.of_Z 15))) F32.one
  else F32.zero.

Section Shading.
(** [f32::powf] comes from the platform's libm, and the [Color] operators
    [Color * f32] and [Color + Color] from [color.rs]: the shading code is
    modelled over any such operations. *)
Variable powf : f32 -> f32 -> f32.
Variable color_mul : Color -> f32 -> Color.
Variable color_add : Color -> Color -> Color.

(** The [for object in objects] loop of [cast_shadow], with its [break]. *)
Fixpoint shadow_scan (origin light_dir : Vec3) (light_distance : f32)
    (objects : list Object) : f32 :=
  match objects with
  | [] => F32.zero
  | obj :: rest =>
      let si := object_intersect obj origin light_dir in
      if is_intersecting si && F32.lt (distance si) light_distance then
        let distance_ratio := F32.div (distance si) light_distance in
        F32.sub F32.one (F32.min (powf distance_ratio F32.two) F32.one)
      else shadow_scan origin light_dir light_distance rest
  end.

Definition cast_shadow (i : Intersect) (light_position : Vec3)
    (objects : list Object) : f32 :=
  let light_dir := V.normalize (V.sub light_position (point i)) in
  let light_distance := V.magnitude (V.sub light_position (point i)) in
  let shadow_ray_origin := offset_origin i light_dir in
  shadow_scan shadow_ray_origin light_dir light_distance objects.

(** The nearest-hit loop of [cast_ray] ([zbuffer] starts at infinity). *)
Fixpoint nearest_hit (o d : Vec3) (objects : list Object)
    (intersect : Intersect) (zbuffer : f32) : Intersect :=
  match objects with
  | [] => intersect
  | obj :: rest =>
      let i := object_intersect obj o d in
      if is_intersecting i && F32.lt (distance i) zbuffer
      then nearest_hit o d rest i (distance i)
      else nearest_hit o d rest intersect zbuffer
  end.

Definition albedo0 (m : Material) : f32 := let '(a, _, _, _) := albedo m in a.
Definition albedo1 (m : Material) : f32 := let '(_, a, _, _) := albedo m in a.

(** [cast_ray]; [depth] is a [u32]. *)
Definition cast_ray (ray_origin ray_direction : Vec3) (objects : list Object)
    (sun_position : Vec3) (sun_intensity : f32) (depth : N) : Color :=
  if (3 <? depth)%N then adjust_sky_color sun_position else
  let intersect :=
    nearest_hit ray_origin ray_direction objects Intersect_empty (S754_infinity false) in
  if negb (is_intersecting intersect) then adjust_sky_color sun_position else
  let light_dir := V.normalize (V.sub sun_position (point intersect)) in
  let view_dir := V.normalize (V.sub ray_origin (point intersect)) in
  let reflect_dir := V.normalize (reflect (V.neg light_dir) (normal intersect)) in
  let shadow_intensity := cast_shadow intersect sun_position objects in
  let light_intensity := light_intensity_of sun_position sun_intensity in
  let diffuse_intensity :=
    F32.max (F32.abs (V.dot (normal intersect) light_dir)) (F32.dec 1 2) in
  let specular_intensity :=
    powf (F32.max (V.dot view_dir reflect_dir) F32.zero)
         (specular (material intersect)) in
  let diffuse_color :=
    match texture (material intersect) with
    | Some tx =>
        (* [intersect.uv.unwrap()]: a cube hit always carries its UV *)
        let '(u, v) := match uv intersect with Some p => p | None => (F32.zero, F32.zero) end in
        let '(r, g, b) := get_color tx u v in
        mkColor r g b
    | None => diffuse (material intersect)
    end in
  let ambient_light :=
    if F32.lt (vy sun_position) F32.zero then F32.dec 3 10 else F32.dec 2 10 in
  let one_minus_shadow := F32.sub F32.one shadow_intensity in
  let diffuse :=
    color_mul (color_mul (color_mul (color_mul diffuse_color
      (albedo0 (material intersect))) diffuse_intensity) light_intensity)
      one_minus_shadow in
  let specular :=
    color_mul (color_mul (color_mul (color_mul (mkColor 255 255 255)
      (albedo1 (material intersect))) specular_intensity) light_intensity)
      one_minus_shadow in
  let ambient := color_mul diffuse_color ambient_light in
  color_add (color_add diffuse specular) ambient.
End Shading.

(** ** Scenes used by the concrete statements *)

Definition unit_cube : Cube :=
  mkCube (mkVec3 F32.zero F32.zero F32.zero) F32.one Material_black.

(** The ray from (0,0,5) along (0,0,-1). *)
Definition front_origin : Vec3 := mkVec3 F32.zero F32.zero (F32.of_Z 5).
Definition front_direction : Vec3 := mkVec3 F32.zero F32.zero (F32.neg F32.one).

(** The binary32 direction [normalize(0.3, 0.2, -1)] and an origin from
    which it meets the cube on its edge x = 0.5, y = -0.5. *)
Definition edge_origin : Vec3 := mkVec3 (F32.neg F32.one) (F32.dec (-3) 2) (F32.of_Z 5).
Definition edge_direction : Vec3 :=
  mkVec3 (F32.lit 4734803 (-24)) (F32.lit 12626141 (-26)) (F32.lit (-15782677) (-24)).

(** A ray grazing the plane x = -0.5 of the unit cube. *)
Definition graze_origin : Vec3 := mkVec3 (F32.dec (-1) 2) F32.zero (F32.of_Z 5).

(** A 4 x 4 texture whose pixel (x, y) stores its own coordinates. *)
Definition coord_texture : Texture := mkTexture 4 4 (fun x y => (x, y, 0)).

(** The unit cube at the origin, not a light body. *)
Definition one_cube_scene : list Object := [Object_Cube unit_cube false].

Definition noon_sun : Vec3 := mkVec3 F32.zero (F32.of_Z 10) F32.zero.

(** The occlusion test of [cast_shadow]. *)
Definition occludes (origin dir : Vec3) (light_distance : f32) (obj : Object) : bool :=
  let si := object_intersect obj origin dir in
  is_intersecting si && F32.lt (distance si) light_distance.

(** [cast_shadow] as the spec describes it: no occluder gives 0, otherwise
    [1 - min(1, (d / L)^2)] for the first occluder [d] in scene order. *)
Definition cast_shadow_spec (powf : f32 -> f32 -> f32) (i : Intersect)
    (light_position : Vec3) (objects : list Object) : f32 :=
  let light_dir := V.normalize (V.sub light_position (point i)) in
  let light_distance := V.magnitude (V.sub light_position (point i)) in
  let origin := offset_origin i light_dir in
  match find (occludes origin light_dir light_distance) objects with
  | None => F32.zero
  | Some obj =>
      let d := distance (object_intersect obj origin light_dir) in
      F32.sub F32.one (F32.min (powf (F32.div d light_distance) F32.two) F32.one)
  end.

(** What dividing by a signed zero gives: an infinity for a nonzero
    numerator, NaN for a zero or NaN numerator. *)
Definition div_by_zero (x : f32) (s : bool) : f32 :=
  match x with
  | S754_finite sx _ _ | S754_infinity sx => S754_infinity (xorb sx s)
  | _ => S754_nan
  end.

(** ** Lemmas *)

(** The order of [f32] comparisons: [<] is irreflexive, asymmetric and
    transitive (NaN compares with nothing). *)
Lemma pos_compare_cont_eq (a b : positive) : Pos.compare_cont Eq a b = Pos.compare a b.
Proof. reflexivity. Qed.

Ltac cmp_cases :=
  repeat (rewrite ?pos_compare_cont_eq in *; simpl in *;
  match goal with
  | H : context [Z.compare ?a ?b] |- _ => destruct (Z.compare_spec a b)
  | |- context [Z.compare ?a ?b] => destruct (Z.compare_spec a b)
  | H : context [Pos.compare ?a ?b] |- _ => destruct (Pos.compare_spec a b)
  | |- context [Pos.compare ?a ?b] => destruct (Pos.compare_spec a b)
  end); subst; simpl in *; try discriminate; try reflexivity; try lia.

Lemma lt_irrefl (a : f32) : F32.lt a a = false.
Proof. destruct a as [[]|[]| |[] m e]; unfold F32.lt, SFltb; simpl; cmp_cases. Qed.

Lemma lt_asym (a b : f32) : F32.lt a b = true -> F32.lt b a = false.
Proof.
  destruct a as [[]|[]| |[] m e], b as [[]|[]| |[] m' e']; unfold F32.lt, SFltb; simpl;
    intros H; try discriminate; try reflexivity; cmp_cases.
Qed.

Lemma lt_trans (a b c : f32) : F32.lt a b = true -> F32.lt b c = true -> F32.lt a c = true.
Proof.
  destruct a as [[]|[]| |[] m e], b as [[]|[]| |[] m' e'], c as [[]|[]| |[] m'' e''];
    unfold F32.lt, SFltb; simpl; intros H1 H2; try discriminate; try reflexivity; cmp_cases.
Qed.

(** One slab is never inverted: after the swap, [t_max < t_min] is false. *)
Lemma slab_not_inverted lo hi o d a b :
  slab lo hi o d = (a, b) -> F32.lt b a = false.
Proof.
  unfold slab, F32.gt.
  destruct (F32.lt (F32.div (F32.sub hi o) d) (F32.div (F32.sub lo o) d)) eqn:E;
    unfold F32.lt in E; rewrite E; intros H; inversion H; subst;
    [apply lt_asym; exact E | exact E].
Qed.

(** The nearest-hit loop, from any current hit and depth bound [zbuffer]:
    either nothing beats [zbuffer] and the current hit is kept, or the result
    is the hit of a listed object, closer than [zbuffer], that no listed hit
    is strictly closer than. *)
Lemma nearest_hit_inv (o d : Vec3) (objects : list Object) :
  forall (cur : Intersect) (zbuffer : f32),
  let r := nearest_hit o d objects cur zbuffer in
  (r = cur /\
   forall obj, In obj objects ->
     is_intersecting (object_intersect obj o d) = true ->
     F32.lt (distance (object_intersect obj o d)) zbuffer = false) \/
  (exists obj, In obj objects /\ r = object_intersect obj o d /\
   is_intersecting r = true /\ F32.lt (distance r) zbuffer = true /\
   forall obj', In obj' objects ->
     is_intersecting (object_intersect obj' o d) = true ->
     F32.lt (distance (object_intersect obj' o d)) (distance r) = false).
Proof.
  induction objects as [|obj rest IH]; intros cur zb r.
  - left; split; [reflexivity | intros ? []].
  - subst r; simpl.
    destruct (is_intersecting (object_intersect obj o d)) eqn:Hi;
    destruct (F32.lt (distance (object_intersect obj o d)) zb) eqn:Hl; simpl.
    + right.
      destruct (IH (object_intersect obj o d) (distance (object_intersect obj o d)))
        as [[Hr Hn] | (obj' & Hin & Hr & Hri & Hrl & Hmin)].
      * exists obj; rewrite Hr; repeat split; auto.
        intros obj' [<- | Hin] Hi'; [apply lt_irrefl | apply Hn; auto].
      * exists obj'; rewrite Hr in *; repeat split; auto.
        -- eapply lt_trans; [exact Hrl | exact Hl].
        -- intros obj'' [<- | Hin''] Hi''; [apply lt_asym; exact Hrl | apply Hmin; auto].
    + destruct (IH cur zb) as [[Hr Hn] | (obj' & Hin & Hr & Hri & Hrl & Hmin)].
      * left; split; [exact Hr|].
        intros obj' [<- | Hin] Hi'; [exact Hl | apply Hn; auto].
      * right; exists obj'; repeat split; auto.
        intros obj'' [<- | Hin''] Hi''; [|apply Hmin; auto].
        destruct (F32.lt (distance (object_intersect obj o d))
                         (distance (nearest_hit o d rest cur zb))) eqn:E; [|reflexivity].
        rewrite (lt_trans _ _ _ E Hrl) in Hl; discriminate.
    + destruct (IH cur zb) as [[Hr Hn] | (obj' & Hin & Hr & Hri & Hrl & Hmin)].
      * left; split; [exact Hr|].
        intros obj' [<- | Hin] Hi'; [congruence | apply Hn; auto].
      * right; exists obj'; repeat split; auto.
        intros obj'' [<- | Hin''] Hi''; [congruence | apply Hmin; auto].
    + destruct (IH cur zb) as [[Hr Hn] | (obj' & Hin & Hr & Hri & Hrl & Hmin)].
      * left; split; [exact Hr|].
        intros obj' [<- | Hin] Hi'; [congruence | apply Hn; auto].
      * right; exists obj'; repeat split; auto.
        intros obj'' [<- | Hin''] Hi''; [congruence | apply Hmin; auto].
Qed.

Lemma shadow_scan_find (powf : f32 -> f32 -> f32) origin dir L objects :
  shadow_scan powf origin dir L objects =
  match find (occludes origin dir L) objects with
  | None => F32.zero
  | Some obj =>
      F32.sub F32.one
        (F32.min (powf (F32.div (distance (object_intersect obj origin dir)) L) F32.two)
                 F32.one)
  end.
Proof.
  induction objects as [|obj rest IH]; simpl; [reflexivity|].
  unfold occludes.
  destruct (is_intersecting (object_intersect obj origin dir)
            && F32.lt (distance (object_intersect obj origin dir)) L); auto.
Qed.

(** One step of the running interval: clamping [[a, b]] by a slab [[c, d]]
    that passed the emptiness test keeps the interval not inverted. *)
Lemma interval_step (a b c d : f32) :
  F32.lt b a = false -> F32.lt d c = false ->
  F32.gt a d = false -> F32.gt c b = false ->
  F32.lt (if F32.lt d b then d else b) (if F32.gt c a then c else a) = false.
Proof.
  unfold F32.gt; intros H1 H2 H3 H4.
  destruct (F32.lt d b), (SFltb a c); assumption.
Qed.

Lemma ray_intersect_hit_uv (c : Cube) (o d : Vec3) :
  is_intersecting (ray_intersect c o d) = true ->
  uv (ray_intersect c o d) = Some (get_uv c (point (ray_intersect c o d))
                                          (normal (ray_intersect c o d))).
Proof.
  unfold ray_intersect.
  destruct (slab_interval c o d) as [[t_min t_max]|]; [|discriminate].
  destruct (F32.lt t_min F32.zero); [discriminate|reflexivity].
Qed.

(** ** Claims *)

(** C1: the ray from (0,0,5) along (0,0,-1) meets the unit cube at the
    origin exactly at (0,0,0.5), with normal (0,0,1), at distance 4.5. *)
Theorem ray_intersect_front_face :
  let r := ray_intersect unit_cube front_origin front_direction in
  is_intersecting r = true /\
  point r = mkVec3 F32.zero F32.zero (F32.dec 1 2) /\
  normal r = mkVec3 F32.zero F32.zero F32.one /\
  distance r = F32.dec 9 2.
Proof. vm_compute. repeat split; reflexivity. Qed.

(** C2: when the folded slab interval has a negative entry parameter,
    [ray_intersect] returns the no-hit sentinel ([is_intersecting = false],
    [distance = 0]). *)
Theorem ray_intersect_negative_tmin (c : Cube) (o d : Vec3) (t_min t_max : f32)
  (Hslab : slab_interval c o d = Some (t_min, t_max))
  (Hneg : F32.lt t_min F32.zero = true) :
  ray_intersect c o d = Intersect_empty /\
  is_intersecting (ray_intersect c o d) = false /\
  distance (ray_intersect c o d) = F32.zero.
Proof.
  assert (E : ray_intersect c o d = Intersect_empty)
    by (unfold ray_intersect; rewrite Hslab, Hneg; reflexivity).
  rewrite E. repeat split.
Qed.

Lemma ray_intersect_negative_tmin_witness :
  let o := front_origin in
  let d := mkVec3 F32.zero F32.zero F32.one in
  slab_interval unit_cube o d = Some (F32.dec (-11) 2, F32.dec (-9) 2) /\
  F32.lt (F32.dec (-11) 2) F32.zero = true /\
  ray_intersect unit_cube o d = Intersect_empty.
Proof.
  intros o d.
  assert (Hs : slab_interval unit_cube o d = Some (F32.dec (-11) 2, F32.dec (-9) 2))
    by (vm_compute; reflexivity).
  assert (Hn : F32.lt (F32.dec (-11) 2) F32.zero = true) by (vm_compute; reflexivity).
  split; [exact Hs | split; [exact Hn |]].
  exact (proj1 (ray_intersect_negative_tmin unit_cube o d _ _ Hs Hn)).
Defined.

(** C3 (evaluated at the failing input): the ray from (-1,-1.5,5) along the
    binary32 [normalize(0.3,0.2,-1)] hits the unit cube on its edge, and the
    rounded hit point lies 2^-24 below the face y = -0.5, so [fract] returns
    v = -2^-24 < 0. *)
Theorem get_uv_negative_on_edge :
  let r := ray_intersect unit_cube edge_origin edge_direction in
  is_intersecting r = true /\
  normal r = mkVec3 F32.one F32.zero F32.zero /\
  uv r = Some (F32.dec 1 2, F32.neg (F32.lit 1 (-24))) /\
  F32.lt (F32.neg (F32.lit 1 (-24))) F32.zero = true.
Proof. vm_compute. repeat split; reflexivity. Qed.

(** C4: [cast_shadow] returns 0 when no object occludes the biased shadow
    ray closer than the light, and otherwise [1 - min(1, (d/L)^2)] for the
    first occluder in scene order; later occluders are never looked at. *)
Theorem cast_shadow_first_occluder (powf : f32 -> f32 -> f32) (i : Intersect)
  (light_position : Vec3) (objects : list Object) :
  cast_shadow powf i light_position objects =
  cast_shadow_spec powf i light_position objects.
Proof. unfold cast_shadow, cast_shadow_spec. apply shadow_scan_find. Qed.

(** C5: the sky color is exactly the day constant when the light body is
    strictly above zero height and exactly the night constant when its
    height is zero or negative. *)
Theorem adjust_sky_color_day_night (sun_position : Vec3) :
  (F32.gt (vy sun_position) F32.zero = true ->
   adjust_sky_color sun_position = DAY_SKY_COLOR) /\
  (F32.le (vy sun_position) F32.zero = true ->
   adjust_sky_color sun_position = NIGHT_SKY_COLOR).
Proof.
  unfold adjust_sky_color, F32.gt, F32.le; split; intros H.
  - rewrite H; reflexivity.
  - destruct (vy sun_position) as [[]|[]| |[] m e];
      try discriminate; reflexivity.
Qed.

Lemma adjust_sky_color_day_night_witness :
  adjust_sky_color noon_sun = DAY_SKY_COLOR /\
  adjust_sky_color (mkVec3 F32.zero (S754_zero true) F32.zero) = NIGHT_SKY_COLOR.
Proof.
  split.
  - apply (proj1 (adjust_sky_color_day_night noon_sun)); vm_compute; reflexivity.
  - apply (proj2 (adjust_sky_color_day_night (mkVec3 F32.zero (S754_zero true) F32.zero)));
      vm_compute; reflexivity.
Defined.

(** C6: the light intensity used by [cast_ray] is
    [sun_intensity * (height / 15) + 1] for a strictly positive height of
    the light body and 0 for a height that is zero or negative. *)
Theorem light_intensity_by_height (sun_position : Vec3) (sun_intensity : f32) :
  (F32.gt (vy sun_position) F32.zero = true ->
   light_intensity_of sun_position sun_intensity =
   F32.add (F32.mul sun_intensity (F32.div (vy sun_position) (F32.of_Z 15))) F32.one) /\
  (F32.le (vy sun_position) F32.zero = true ->
   light_intensity_of sun_position sun_intensity = F32.zero).
Proof.
  unfold light_intensity_of, F32.gt, F32.le, F32.max, F32.lt.
  destruct (vy sun_position) as [[]|[]| |[] m e]; simpl;
    split; intros H; try discriminate; reflexivity.
Qed.

Lemma light_intensity_by_height_witness :
  light_intensity_of noon_sun (F32.of_Z 2) =
    F32.add (F32.mul (F32.of_Z 2) (F32.div (F32.of_Z 10) (F32.of_Z 15))) F32.one /\
  light_intensity_of (mkVec3 F32.zero (F32.of_Z (-3)) F32.zero) (F32.of_Z 2) = F32.zero.
Proof.
  split.
  - apply (proj1 (light_intensity_by_height noon_sun (F32.of_Z 2)));
      vm_compute; reflexivity.
  - apply (proj2 (light_intensity_by_height (mkVec3 F32.zero (F32.of_Z (-3)) F32.zero)
                                            (F32.of_Z 2)));
      vm_compute; reflexivity.
Defined.

(** C7: with a depth above 3, [cast_ray] returns the sky color of the
    current sun position, whatever the geometry. *)
Theorem cast_ray_depth_limit (powf : f32 -> f32 -> f32)
  (color_mul : Color -> f32 -> Color) (color_add : Color -> Color -> Color)
  (ray_origin ray_direction : Vec3) (objects : list Object)
  (sun_position : Vec3) (sun_intensity : f32) (depth : N)
  (Hdepth : (3 < depth)%N) :
  cast_ray powf color_mul color_add ray_origin ray_direction objects
           sun_position sun_intensity depth = adjust_sky_color sun_position.
Proof.
  unfold cast_ray. apply N.ltb_lt in Hdepth. rewrite Hdepth. reflexivity.
Qed.

(** The spec's depth-limit scenario: the front ray hits the cube, so at
    depth 0 no sky is returned there, but at depth 4 the sky color is. *)
Lemma cast_ray_depth_limit_witness :
  is_intersecting (ray_intersect unit_cube front_origin front_direction) = true /\
  (3 < 4)%N /\
  cast_ray (fun a _ => a) (fun c _ => c) (fun a _ => a) front_origin front_direction
           one_cube_scene noon_sun (F32.of_Z 2) 4 = DAY_SKY_COLOR.
Proof.
  split; [vm_compute; reflexivity|].
  split; [reflexivity|].
  rewrite (cast_ray_depth_limit (fun a _ => a) (fun c _ => c) (fun a _ => a)
             front_origin front_direction one_cube_scene noon_sun (F32.of_Z 2) 4
             (eq_refl : (3 < 4)%N)).
  vm_compute; reflexivity.
Defined.

(** C8 (evaluated at the failing input): on a 4 x 4 texture, [get_color]
    flips v (v = 1/8 reads the bottom row 3, v = 7/8 the top row 0) and
    wraps positive u, but u = -1/4 reads column 0 while u = 3/4, one period
    away, reads column 3: [fract] keeps the sign and the cast to [u32]
    saturates to 0. *)
Theorem get_color_negative_u_not_wrapped :
  get_color coord_texture (F32.dec 1 2) (F32.dec 1 8) = (2, 3, 0) /\
  get_color coord_texture (F32.dec 1 2) (F32.dec 7 8) = (2, 0, 0) /\
  get_color coord_texture (F32.dec 7 4) (F32.dec 1 2) = (3, 2, 0) /\
  get_color coord_texture (F32.dec 3 4) (F32.dec 1 2) = (3, 2, 0) /\
  get_color coord_texture (F32.dec (-1) 4) (F32.dec 1 2) = (0, 2, 0).
Proof. vm_compute. repeat split; reflexivity. Qed.

(** C9, refuted as stated: for the ray from (-0.5, 0, 5) along (0, 0, -1),
    whose origin lies on the bounding plane x = -0.5, the zero direction
    component gives the NaN bound [0/0], not an infinite one; for this ray
    the NaN entry parameter is kept, and the ray is reported as a hit at
    NaN distance. *)
Lemma zero_direction_nan_bound :
  slab (F32.dec (-1) 2) (F32.dec 1 2) (F32.dec (-1) 2) F32.zero
    = (S754_nan, S754_infinity false) /\
  slab_interval unit_cube graze_origin front_direction
    = Some (S754_nan, F32.dec 11 2) /\
  is_intersecting (ray_intersect unit_cube graze_origin front_direction) = true /\
  distance (ray_intersect unit_cube graze_origin front_direction) = S754_nan.
Proof. vm_compute. repeat split; reflexivity. Qed.

(** C9, as amended: the slab computation of [ray_intersect] does not
    special-case a zero direction component (a plain IEEE division, which
    cannot panic): for such a component, of either sign, each slab bound is
    [bound - origin] divided by that signed zero, an infinity when the
    difference is nonzero or infinite, and NaN when it is zero (the origin
    lies exactly on that bounding plane) or NaN. *)
Theorem slab_zero_direction (lo hi o : f32) (s : bool) :
  slab lo hi o (S754_zero s) =
  let t0 := div_by_zero (F32.sub lo o) s in
  let t1 := div_by_zero (F32.sub hi o) s in
  if F32.gt t0 t1 then (t1, t0) else (t0, t1).
Proof.
  unfold slab.
  assert (D : forall x, F32.div x (S754_zero s) = div_by_zero x s)
    by (intros [sx|sx| |sx mx ex]; reflexivity).
  rewrite !D. reflexivity.
Qed.

(** C10: [cast_ray] never calls itself; all depths up to 3 give the same
    color, the depth only selecting the early sky return above 3. *)
Theorem cast_ray_depth_irrelevant (powf : f32 -> f32 -> f32)
  (color_mul : Color -> f32 -> Color) (color_add : Color -> Color -> Color)
  (ray_origin ray_direction : Vec3) (objects : list Object)
  (sun_position : Vec3) (sun_intensity : f32) (d1 d2 : N)
  (H1 : (d1 <= 3)%N) (H2 : (d2 <= 3)%N) :
  cast_ray powf color_mul color_add ray_origin ray_direction objects
           sun_position sun_intensity d1 =
  cast_ray powf color_mul color_add ray_origin ray_direction objects
           sun_position sun_intensity d2.
Proof.
  unfold cast_ray.
  assert (E1 : (3 <? d1)%N = false) by (apply N.ltb_ge; exact H1).
  assert (E2 : (3 <? d2)%N = false) by (apply N.ltb_ge; exact H2).
  rewrite E1, E2. reflexivity.
Qed.

Lemma cast_ray_depth_irrelevant_witness :
  cast_ray (fun a _ => a) (fun c _ => c) (fun a _ => a) front_origin front_direction
           one_cube_scene noon_sun (F32.of_Z 2) 0 =
  cast_ray (fun a _ => a) (fun c _ => c) (fun a _ => a) front_origin front_direction
           one_cube_scene noon_sun (F32.of_Z 2) 3.
Proof.
  apply (cast_ray_depth_irrelevant (fun a _ => a) (fun c _ => c) (fun a _ => a)
           front_origin front_direction one_cube_scene noon_sun (F32.of_Z 2) 0 3);
    vm_compute; discriminate.
Defined.

(** ** Further properties of the code *)

(** The folded slab interval is never inverted: whenever [slab_interval]
    yields [(t_min, t_max)], [t_max < t_min] is false (also with NaN). *)
Theorem slab_interval_not_inverted (c : Cube) (o d : Vec3) (t_min t_max : f32)
  (H : slab_interval c o d = Some (t_min, t_max)) :
  F32.lt t_max t_min = false.
Proof.
  revert H; unfold slab_interval.
  set (mn := V.sub (center c) (half_extent c)).
  set (mx := V.add (center c) (half_extent c)).
  destruct (slab (vx mn) (vx mx) (vx o) (vx d)) as [a b] eqn:Ex.
  destruct (slab (vy mn) (vy mx) (vy o) (vy d)) as [cy dy] eqn:Ey.
  destruct (slab (vz mn) (vz mx) (vz o) (vz d)) as [cz dz] eqn:Ez.
  apply slab_not_inverted in Ex, Ey, Ez.
  intros H.
  repeat (match type of H with
          | context [?x || _] =>
              match x with
              | true => fail 1
              | false => fail 1
              | context [if _ then _ else _] => fail 1
              | _ => let E := fresh "E" in destruct x eqn:E
              end
          | context [if ?x then _ else _] =>
              match x with
              | true => fail 1
              | false => fail 1
              | context [if _ then _ else _] => fail 1
              | _ => let E := fresh "E" in destruct x eqn:E
              end
          end; cbn [orb] in H);
    try discriminate H; inversion H; subst; unfold F32.gt in *; assumption.
Qed.

Lemma slab_interval_not_inverted_witness :
  slab_interval unit_cube front_origin front_direction
    = Some (F32.dec 9 2, F32.dec 11 2) /\
  F32.lt (F32.dec 11 2) (F32.dec 9 2) = false.
Proof.
  assert (H : slab_interval unit_cube front_origin front_direction
              = Some (F32.dec 9 2, F32.dec 11 2)) by (vm_compute; reflexivity).
  split; [exact H | exact (slab_interval_not_inverted _ _ _ _ _ H)].
Defined.

(** The nearest-hit search of [cast_ray] (from the sentinel and an infinite
    z-buffer) either finds nothing, every reported hit then lying at NaN or
    infinite distance, or returns the hit of a scene object at a finite,
    non-NaN distance that no other object's hit is strictly closer than. *)
Theorem cast_ray_nearest_hit (o d : Vec3) (objects : list Object) :
  let r := nearest_hit o d objects Intersect_empty (S754_infinity false) in
  (r = Intersect_empty /\
   forall obj, In obj objects ->
     is_intersecting (object_intersect obj o d) = true ->
     F32.lt (distance (object_intersect obj o d)) (S754_infinity false) = false) \/
  (exists obj, In obj objects /\ r = object_intersect obj o d /\
   is_intersecting r = true /\ F32.lt (distance r) (S754_infinity false) = true /\
   forall obj', In obj' objects ->
     is_intersecting (object_intersect obj' o d) = true ->
     F32.lt (distance (object_intersect obj' o d)) (distance r) = false).
Proof. apply nearest_hit_inv. Qed.

(** When no object's hit lies at a distance below infinity (no hit at all,
    or only hits at NaN or infinite distance), [cast_ray] returns the sky
    color at every depth. *)
Theorem cast_ray_sky_without_hit (powf : f32 -> f32 -> f32)
  (color_mul : Color -> f32 -> Color) (color_add : Color -> Color -> Color)
  (ray_origin ray_direction : Vec3) (objects : list Object)
  (sun_position : Vec3) (sun_intensity : f32) (depth : N)
  (Hnone : forall obj, In obj objects ->
     is_intersecting (object_intersect obj ray_origin ray_direction) = true ->
     F32.lt (distance (object_intersect obj ray_origin ray_direction))
            (S754_infinity false) = false) :
  cast_ray powf color_mul color_add ray_origin ray_direction objects
           sun_position sun_intensity depth = adjust_sky_color sun_position.
Proof.
  unfold cast_ray.
  destruct (3 <? depth)%N; [reflexivity|].
  destruct (nearest_hit_inv ray_origin ray_direction objects Intersect_empty
              (S754_infinity false)) as [[Hr _] | (obj & Hin & Hr & Hri & Hrl & _)].
  - cbv zeta; rewrite Hr; reflexivity.
  - exfalso. rewrite Hr in Hri, Hrl.
    rewrite (Hnone obj Hin Hri) in Hrl; discriminate.
Qed.

(** The grazing ray of [zero_direction_nan_bound]: [ray_intersect] reports a
    hit at NaN distance, yet [cast_ray] renders the sky. *)
Lemma cast_ray_sky_without_hit_witness :
  is_intersecting (ray_intersect unit_cube graze_origin front_direction) = true /\
  cast_ray (fun a _ => a) (fun c _ => c) (fun a _ => a) graze_origin front_direction
           one_cube_scene noon_sun (F32.of_Z 2) 0 = DAY_SKY_COLOR.
Proof.
  split; [vm_compute; reflexivity|].
  rewrite (cast_ray_sky_without_hit (fun a _ => a) (fun c _ => c) (fun a _ => a)
             graze_origin front_direction one_cube_scene noon_sun (F32.of_Z 2) 0).
  - vm_compute; reflexivity.
  - intros obj [<- | []] _; vm_compute; reflexivity.
Defined.

(** The hit [cast_ray] shades always carries a UV pair, so the
    [intersect.uv.unwrap()] of a textured material never panics. *)
Theorem cast_ray_hit_has_uv (o d : Vec3) (objects : list Object)
  (H : is_intersecting (nearest_hit o d objects Intersect_empty (S754_infinity false)) = true) :
  exists p, uv (nearest_hit o d objects Intersect_empty (S754_infinity false)) = Some p.
Proof.
  destruct (nearest_hit_inv o d objects Intersect_empty (S754_infinity false))
    as [[Hr _] | (obj & _ & Hr & Hri & _ & _)].
  - rewrite Hr in H; discriminate.
  - rewrite Hr in Hri |- *. destruct obj as [c b]. simpl in *.
    eexists; apply ray_intersect_hit_uv; exact Hri.
Qed.

Lemma cast_ray_hit_has_uv_witness :
  exists p, uv (nearest_hit front_origin front_direction one_cube_scene
                           Intersect_empty (S754_infinity false)) = Some p.
Proof. apply cast_ray_hit_has_uv; vm_compute; reflexivity. Defined.

(** For a texture of positive width and height, [get_color] reads the image
    at a column in [0, width) and a row in [0, height), whatever u and v
    (also NaN or infinite), so [get_pixel] is never called out of bounds. *)
Theorem get_color_in_bounds (tx : Texture) (u v : f32)
  (Hw : 0 < tex_width tx) (Hh : 0 < tex_height tx) :
  exists x y, 0 <= x < tex_width tx /\ 0 <= y < tex_height tx /\
              get_color tx u v = get_pixel tx x y.
Proof.
  unfold get_color.
  eexists; eexists; split; [|split; [|reflexivity]]; apply Z.mod_pos_bound; assumption.
Qed.

Lemma get_color_in_bounds_witness :
  exists x y, 0 <= x < 4 /\ 0 <= y < 4 /\
              get_color coord_texture S754_nan (S754_infinity true) = (x, y, 0).
Proof.
  exact (get_color_in_bounds coord_texture S754_nan (S754_infinity true)
           (eq_refl : 0 < 4) (eq_refl : 0 < 4)).
Defined.
